(** * gcloud.storage: the shortcut functions [get_connection] and [get_bucket]

    A shallow embedding of [gcloud/storage/__init__.py].  The module is glue
    code: it imports two collaborators, asks one for credentials, builds a
    connection with the other and (in [get_bucket]) asks the connection for a
    bucket.  The collaborators are not part of the module, so they are an
    oracle here: every import, attribute lookup and call that leaves the module
    is an [op] answered by the oracle, which may return a value or raise, and
    may change the outside world.  The functions of the module are computations
    of a state-and-exception monad over the module globals, the outside world
    and the log of the operations performed.  The module is the package
    [gcloud.storage] itself, so the import system writes to its globals when
    it loads one of its submodules. *)

From Stdlib Require Import Ascii.
From stdpp Require Import gmap strings list.

Open Scope string_scope.
Open Scope list_scope.

(** ** Python values, exceptions and collaborator operations *)

(** The values the module handles: strings, tuples, and the objects of the
    collaborators, which are opaque to the module and named by an identity. *)
#[warnings="-register-all"]
Inductive value : Type :=
| VNone
| VStr (s : string)
| VTuple (items : list value)
| VObj (id : nat).

(** What a call of this module can raise: the interpreter's error for a call
    with the wrong number of positional arguments, its error for an unbound
    global name, or an exception [e] raised inside a collaborator. *)
Inductive exn (E : Type) : Type :=
| TypeError_arity (fname : string) (required given : nat)
| NameError (name : string)
| Raised (e : E).
Arguments TypeError_arity {E} fname required given.
Arguments NameError {E} name.
Arguments Raised {E} e.

(** The operations that leave the module: [from m import n], [obj.attr], and
    a call of [callee] with positional and keyword arguments. *)
Inductive op : Type :=
| ImportFrom (module name : string)
| GetAttr (obj : value) (attr : string)
| Call (callee : value) (args : list value) (kwargs : list (string * value)).

(** The collaborators: each operation, in a world [W], returns a value or
    raises an [E], and leaves a new world.  The world is theirs (files,
    network, their own objects, the table of loaded modules); the globals of
    this module are not part of it.  [loaded w name] is the module object
    registered under the dotted [name] in the table of loaded modules of
    [w], if there is one. *)
Class Collaborators (W E : Type) := {
  perform : op -> W -> (value + E) * W;
  loaded : W -> string -> option value
}.

(** The interpreter state a call runs in. *)
Record state (W : Type) : Type := State {
  globals : gmap string value;
  world : W;
  trace : list op
}.
Arguments State {W} globals world trace.
Arguments globals {W} s.
Arguments world {W} s.
Arguments trace {W} s.

(** ** The module-level constants (lines 31-34) *)

(** The file is [gcloud/storage/__init__.py]: the package [gcloud.storage]. *)
Definition __name__ : string := "gcloud.storage".

Definition __version__ : value := VStr "0.1".

Definition SCOPE : value :=
  VTuple [VStr "https://www.googleapis.com/auth/devstorage.full_control";
          VStr "https://www.googleapis.com/auth/devstorage.read_write"].

(** The data globals of the module after import. *)
Definition module_globals : gmap string value :=
  <["SCOPE" := SCOPE]> (<["__version__" := __version__]> ∅).

(** ** The monad *)

Definition M (W E A : Type) : Type := state W -> (A + exn E) * state W.

Definition ret {W E A} (a : A) : M W E A := fun s => (inl a, s).

Definition bind {W E A B} (m : M W E A) (k : A -> M W E B) : M W E B :=
  fun s =>
    match m s with
    | (inl a, s') => k a s'
    | (inr x, s') => (inr x, s')
    end.

Definition raise {W E A} (x : exn E) : M W E A := fun s => (inr x, s).

Notation "'let*' x ':=' m 'in' k" := (bind m (fun x => k))
  (at level 10, x name, m at level 100, k at level 200).

(** Dotted module names: [strip_prefix p s] is what follows [p] in [s], and
    [first_component s] is [s] up to its first dot. *)
Fixpoint strip_prefix (p s : string) : option string :=
  match p, s with
  | EmptyString, _ => Some s
  | String a p', String b s' =>
      if Ascii.eqb a b then strip_prefix p' s' else None
  | String _ _, EmptyString => None
  end.

Fixpoint first_component (s : string) : string :=
  match s with
  | EmptyString => EmptyString
  | String c rest =>
      if Ascii.eqb c "."%char then EmptyString
      else String c (first_component rest)
  end.

(** The direct submodule of the package [pkg] on the way to [module]. *)
Definition child_of (pkg module : string) : option string :=
  match strip_prefix (String.append pkg ".") module with
  | Some rest => Some (first_component rest)
  | None => None
  end.

(** An exception of a collaborator enters the module as it is. *)
Definition lift {E} (r : value + E) : value + exn E :=
  match r with
  | inl v => inl v
  | inr e => inr (Raised e)
  end.

Section Model.
Context {W E : Type} {C : Collaborators W E}.

(** Performs one collaborator operation: logs it, takes the new world, and
    returns or raises what the collaborator did. *)
Definition do_op (o : op) : M W E value :=
  fun s =>
    let '(r, w') := perform o (world s) in
    (lift r, State (globals s) w' (trace s ++ [o])).

(** What the import system adds to the globals of this package while
    [module] is imported: when the import loads a direct submodule of the
    package (absent from the table of loaded modules before, present after),
    the submodule is bound under its own name in the package, whether or not
    the imported [name] is then found in it.  A module already loaded, or
    outside the package, binds nothing here. *)
Definition submodule_binding (module : string) (before after : W)
  : option (string * value) :=
  match child_of __name__ module with
  | Some child =>
      let full := String.append __name__ (String.append "." child) in
      match loaded before full, loaded after full with
      | None, Some m => Some (child, m)
      | _, _ => None
      end
  | None => None
  end.

Definition globals_after_import (module : string) (before after : W)
  (g : gmap string value) : gmap string value :=
  match submodule_binding module before after with
  | Some (child, m) => <[child := m]> g
  | None => g
  end.

(** [from module import name]: one collaborator operation, and the binding of
    a newly loaded submodule. *)
Definition import_from (module name : string) : M W E value :=
  fun s =>
    let o := ImportFrom module name in
    let '(r, w') := perform o (world s) in
    (lift r,
     State (globals_after_import module (world s) w' (globals s)) w'
       (trace s ++ [o])).

Definition getattr (obj : value) (attr : string) : M W E value :=
  do_op (GetAttr obj attr).

Definition call (callee : value) (args : list value)
  (kwargs : list (string * value)) : M W E value :=
  do_op (Call callee args kwargs).

(** Reads a global name of the module. *)
Definition load_global (name : string) : M W E value :=
  fun s =>
    match globals s !! name with
    | Some v => (inl v, s)
    | None => (inr (NameError name), s)
    end.

(** ** [get_connection] (lines 37-67) *)

(** The body, with the three parameters bound. *)
Definition get_connection_body
  (project_name client_email private_key_path : value) : M W E value :=
  let* Credentials := import_from "gcloud.credentials" "Credentials" in
  let* Connection := import_from "gcloud.storage.connection" "Connection" in
  let* acquire := getattr Credentials "get_for_service_account" in
  let* scope := load_global "SCOPE" in
  let* credentials := call acquire [client_email; private_key_path]
                   [("scope", scope)] in
  call Connection [] [("project_name", project_name);
                      ("credentials", credentials)].

(** The function as a callee: three required positional parameters. *)
Definition get_connection (args : list value) : M W E value :=
  match args with
  | [project_name; client_email; private_key_path] =>
      get_connection_body project_name client_email private_key_path
  | _ => raise (TypeError_arity "get_connection" 3 (length args))
  end.

(** ** [get_bucket] (lines 69-96) *)

(** Line 95 names [get_connection], the function of this module defined
    above, and passes it two positional arguments. *)

Definition get_bucket_body
  (bucket_name client_email private_key_path : value) : M W E value :=
  let* connection := get_connection [client_email; private_key_path] in
  let* resolve := getattr connection "get_bucket" in
  call resolve [bucket_name] [].

Definition get_bucket (args : list value) : M W E value :=
  match args with
  | [bucket_name; client_email; private_key_path] =>
      get_bucket_body bucket_name client_email private_key_path
  | _ => raise (TypeError_arity "get_bucket" 3 (length args))
  end.

(** The chain the documentation of [get_connection] shows and the
    specification compares [get_bucket] with:
    [get_connection(project_name, client_email, private_key_path)
       .get_bucket(bucket_name)]. *)
Definition get_bucket_chained
  (project_name bucket_name client_email private_key_path : value)
  : M W E value :=
  let* connection := get_connection [project_name; client_email;
                                private_key_path] in
  let* resolve := getattr connection "get_bucket" in
  call resolve [bucket_name] [].

(** ** Reading a log back *)

(** The world after the collaborators performed [ops] from [w]. *)
Fixpoint replay (ops : list op) (w : W) : W :=
  match ops with
  | [] => w
  | o :: rest => replay rest (snd (perform o w))
  end.

(** What the operation [o] did when it ran after [pre], from [w]. *)
Definition outcome_after (pre : list op) (o : op) (w : W) : value + E :=
  fst (perform o (replay pre w)).

End Model.

(** The operations a run added to a log of length [n]. *)
Definition new_ops {W} (n : nat) (s' : state W) : list op :=
  drop n (trace s').

Definition is_call (o : op) : bool :=
  match o with
  | Call _ _ _ => true
  | _ => false
  end.

(** The calls among the operations, in order. *)
Definition calls_in (ops : list op) : list op := filter is_call ops.

(** The calls whose callee is the object [id], in order. *)
Definition is_call_of (id : nat) (o : op) : bool :=
  match o with
  | Call (VObj j) _ _ => Nat.eqb j id
  | _ => false
  end.

Definition calls_of (id : nat) (ops : list op) : list op :=
  filter (is_call_of id) ops.

(** ** What a computation may and may not do with its collaborators *)

(** [g'] is [g], or [g] with the name [connection] bound anew. *)
Definition binds_at_most_connection (g g' : gmap string value) : Prop :=
  g' = g \/ exists m, g' = <["connection" := m]> g.

Section Disciplines.
Context {W E : Type} {C : Collaborators W E}.

(** [m] handles no error of a collaborator: from every state it performs
    some operations [ops], and
    - the log grows by [ops], the world is the one the collaborators left and
      no global is touched, except that [connection], the name of the
      submodule line 63 imports from, may be bound;
    - if an operation raised [e], nothing was performed after it and [m]
      raised that very [e];
    - if [m] raised a collaborator exception [e], the last operation raised
      it. *)
Definition faithful {A} (m : M W E A) : Prop :=
  forall s, exists ops,
    trace (snd (m s)) = trace s ++ ops /\
    world (snd (m s)) = replay ops (world s) /\
    binds_at_most_connection (globals s) (globals (snd (m s))) /\
    (forall pre o post e,
        ops = pre ++ o :: post ->
        outcome_after pre o (world s) = inr e ->
        post = [] /\ fst (m s) = inr (Raised e)) /\
    (forall e,
        fst (m s) = inr (Raised e) ->
        exists pre o, ops = pre ++ [o] /\
                      outcome_after pre o (world s) = inr e).

(** Two states agree when they give the global [SCOPE] the same binding and
    their worlds are related by [Rw]. *)
Definition agree (Rw : W -> W -> Prop) (s1 s2 : state W) : Prop :=
  globals s1 !! "SCOPE" = globals s2 !! "SCOPE" /\
  Rw (world s1) (world s2).

(** [m] reads nothing but [SCOPE] and the world: from states that agree it
    gives the same result, performs the same operations, and ends in states
    that agree. *)
Definition insensitive (Rw : W -> W -> Prop) {A} (m : M W E A) : Prop :=
  forall s1 s2, agree Rw s1 s2 ->
    fst (m s1) = fst (m s2) /\
    agree Rw (snd (m s1)) (snd (m s2)) /\
    exists ops, trace (snd (m s1)) = trace s1 ++ ops /\
                trace (snd (m s2)) = trace s2 ++ ops.

End Disciplines.

(** ** Fake collaborators

    Test doubles: every constructor returns a fixed sentinel object, whatever
    its arguments; the world counts the operations performed. *)

Module Fake.

Definition CredentialsClass : value := VObj 1.
Definition ConnectionClass : value := VObj 2.
Definition acquire_fn : value := VObj 3.
Definition CRED : value := VObj 10.
Definition CONN : value := VObj 20.
Definition resolve_fn : value := VObj 21.
Definition BUCKET : value := VObj 30.

Definition answer (o : op) : value + string :=
  match o with
  | ImportFrom m n =>
      if String.eqb m "gcloud.credentials" && String.eqb n "Credentials"
      then inl CredentialsClass
      else if String.eqb m "gcloud.storage.connection"
              && String.eqb n "Connection"
      then inl ConnectionClass
      else inr "ImportError"
  | GetAttr (VObj 1) a =>
      if String.eqb a "get_for_service_account" then inl acquire_fn
      else inr "AttributeError"
  | GetAttr (VObj 20) a =>
      if String.eqb a "get_bucket" then inl resolve_fn
      else inr "AttributeError"
  | GetAttr _ _ => inr "AttributeError"
  | Call (VObj 2) _ _ => inl CONN
  | Call (VObj 3) _ _ => inl CRED
  | Call (VObj 21) _ _ => inl BUCKET
  | Call _ _ _ => inr "TypeError: object is not callable"
  end.

(** The doubles stand in the table of loaded modules from the start, so
    importing them loads nothing. *)
Definition preloaded (n : nat) (name : string) : option value :=
  if String.eqb name "gcloud.credentials" then Some (VObj 4)
  else if String.eqb name "gcloud.storage.connection" then Some (VObj 5)
  else None.

Definition collaborators : Collaborators nat string :=
  {| perform := fun o n => (answer o, S n); loaded := preloaded |}.

(** The same doubles, but the key file is rejected: credential acquisition
    raises. *)
Definition answer_bad_key (o : op) : value + string :=
  match o with
  | Call (VObj 3) _ _ => inr "CredentialsError: bad private key"
  | _ => answer o
  end.

Definition bad_key : Collaborators nat string :=
  {| perform := fun o n => (answer_bad_key o, S n); loaded := preloaded |}.

(** The state of a fresh interpreter that has imported the module. *)
Definition s0 : state nat := State module_globals 0 [].

End Fake.

(** ** The runs of [get_connection], case by case

    Lines 62-67 perform at most five operations, in this order; the first
    that raises ends the run, and so does an unbound [SCOPE]. *)

Definition import_Credentials : op :=
  ImportFrom "gcloud.credentials" "Credentials".

Definition import_Connection : op :=
  ImportFrom "gcloud.storage.connection" "Connection".

Definition lookup_acquire (Credentials : value) : op :=
  GetAttr Credentials "get_for_service_account".

Definition acquisition (acquire client_email private_key_path scope : value)
  : op :=
  Call acquire [client_email; private_key_path] [("scope", scope)].

Definition construction (Connection project_name credentials : value) : op :=
  Call Connection [] [("project_name", project_name);
                      ("credentials", credentials)].

(** The five operations of a complete run. *)
Definition script
  (project_name client_email private_key_path : value)
  (Credentials Connection acquire scope credentials : value) : list op :=
  [import_Credentials; import_Connection; lookup_acquire Credentials;
   acquisition acquire client_email private_key_path scope;
   construction Connection project_name credentials].

Section Runs_of_get_connection.
Context {W E : Type} {C : Collaborators W E}.

(** [body_run p e k s r ops w]: from [s], the body with parameters [p], [e],
    [k] performs [ops], returns or raises [r] and leaves the world [w]. *)
Inductive body_run (project_name client_email private_key_path : value)
  (s : state W) : value + exn E -> list op -> W -> Prop :=
| run_no_Credentials x w1 :
    perform import_Credentials (world s) = (inr x, w1) ->
    body_run project_name client_email private_key_path s
      (inr (Raised x)) [import_Credentials] w1
| run_no_Connection Credentials w1 x w2 :
    perform import_Credentials (world s) = (inl Credentials, w1) ->
    perform import_Connection w1 = (inr x, w2) ->
    body_run project_name client_email private_key_path s
      (inr (Raised x)) [import_Credentials; import_Connection] w2
| run_no_attribute Credentials w1 Connection w2 x w3 :
    perform import_Credentials (world s) = (inl Credentials, w1) ->
    perform import_Connection w1 = (inl Connection, w2) ->
    perform (lookup_acquire Credentials) w2 = (inr x, w3) ->
    body_run project_name client_email private_key_path s
      (inr (Raised x))
      [import_Credentials; import_Connection; lookup_acquire Credentials] w3
| run_no_SCOPE Credentials w1 Connection w2 acquire w3 :
    perform import_Credentials (world s) = (inl Credentials, w1) ->
    perform import_Connection w1 = (inl Connection, w2) ->
    perform (lookup_acquire Credentials) w2 = (inl acquire, w3) ->
    globals s !! "SCOPE" = None ->
    body_run project_name client_email private_key_path s
      (inr (NameError "SCOPE"))
      [import_Credentials; import_Connection; lookup_acquire Credentials] w3
| run_no_credentials Credentials w1 Connection w2 acquire w3 scope x w4 :
    perform import_Credentials (world s) = (inl Credentials, w1) ->
    perform import_Connection w1 = (inl Connection, w2) ->
    perform (lookup_acquire Credentials) w2 = (inl acquire, w3) ->
    globals s !! "SCOPE" = Some scope ->
    perform (acquisition acquire client_email private_key_path scope) w3
      = (inr x, w4) ->
    body_run project_name client_email private_key_path s
      (inr (Raised x))
      [import_Credentials; import_Connection; lookup_acquire Credentials;
       acquisition acquire client_email private_key_path scope] w4
| run_constructed Credentials w1 Connection w2 acquire w3 scope
    credentials w4 r w5 :
    perform import_Credentials (world s) = (inl Credentials, w1) ->
    perform import_Connection w1 = (inl Connection, w2) ->
    perform (lookup_acquire Credentials) w2 = (inl acquire, w3) ->
    globals s !! "SCOPE" = Some scope ->
    perform (acquisition acquire client_email private_key_path scope) w3
      = (inl credentials, w4) ->
    perform (construction Connection project_name credentials) w4
      = (r, w5) ->
    body_run project_name client_email private_key_path s
      (lift r)
      (script project_name client_email private_key_path
         Credentials Connection acquire scope credentials) w5.

End Runs_of_get_connection.

(** ** Collaborators that fail

    The fake collaborators, except that the operations [bad] selects raise. *)

Module Broken.

Definition failing (bad : op -> bool) : Collaborators nat string :=
  {| perform := fun o n =>
       (if bad o then inr "Failure" else Fake.answer o, S n);
     loaded := Fake.preloaded |}.

Definition is_import_of (module : string) (o : op) : bool :=
  match o with
  | ImportFrom m _ => String.eqb m module
  | _ => false
  end.

Definition is_attribute_lookup (o : op) : bool :=
  match o with
  | GetAttr _ _ => true
  | _ => false
  end.

(** A state of the module in which [SCOPE] has been deleted. *)
Definition s_unbound : state nat := State (delete "SCOPE" module_globals) 0 [].

End Broken.

(** ** Collaborators that go through the import system

    The fake classes again, but the modules are not loaded beforehand: the
    world is the list of the names of the modules loaded so far, and an
    import loads the module it names. *)

Module Loader.

Definition connection_module : value := VObj 40.

Definition module_object (name : string) : value :=
  if String.eqb name "gcloud.storage.connection" then connection_module
  else VObj 41.

Definition is_loaded (name : string) (w : list string) : bool :=
  existsb (String.eqb name) w.

Definition load (name : string) (w : list string) : list string :=
  if is_loaded name w then w else name :: w.

Definition collaborators : Collaborators (list string) string :=
  {| perform := fun o w =>
       (Fake.answer o,
        match o with
        | ImportFrom m _ => load m w
        | _ => w
        end);
     loaded := fun w name =>
       if is_loaded name w then Some (module_object name) else None |}.

(** A fresh interpreter that has imported the package and nothing else. *)
Definition s0 : state (list string) := State module_globals [] [].

End Loader.

(** * Properties *)

(** ** Running the primitives *)

Section Runs.
Context {W E : Type} {C : Collaborators W E}.

Lemma do_op_run (o : op) (s : state W) :
  do_op o s =
  (lift (fst (perform o (world s))),
   State (globals s) (snd (perform o (world s))) (trace s ++ [o])).
Proof. unfold do_op. destruct (perform o (world s)); reflexivity. Qed.

Lemma import_from_run (module name : string) (s : state W) :
  import_from module name s =
  (lift (fst (perform (ImportFrom module name) (world s))),
   State (globals_after_import module (world s)
            (snd (perform (ImportFrom module name) (world s))) (globals s))
     (snd (perform (ImportFrom module name) (world s)))
     (trace s ++ [ImportFrom module name])).
Proof.
  unfold import_from.
  destruct (perform (ImportFrom module name) (world s)); reflexivity.
Qed.

(** [gcloud.credentials] is no submodule of this package. *)
Lemma globals_after_import_Credentials (w w' : W) (g : gmap string value) :
  globals_after_import "gcloud.credentials" w w' g = g.
Proof. reflexivity. Qed.

(** [gcloud.storage.connection] is one: its import can bind [connection],
    and nothing else. *)
Lemma globals_after_import_Connection (w w' : W) (g : gmap string value) :
  globals_after_import "gcloud.storage.connection" w w' g = g \/
  exists m, globals_after_import "gcloud.storage.connection" w w' g
            = <["connection" := m]> g.
Proof.
  unfold globals_after_import, submodule_binding.
  change (child_of __name__ "gcloud.storage.connection")
    with (Some "connection").
  cbv beta iota zeta.
  match goal with
  | |- context [loaded w ?full] =>
      destruct (loaded w full); [left; reflexivity|];
      destruct (loaded w' full) as [m|]; [right; exists m|left]; reflexivity
  end.
Qed.

Lemma binds_at_most_connection_refl (g : gmap string value) :
  binds_at_most_connection g g.
Proof. left. reflexivity. Qed.

Lemma binds_at_most_connection_trans (g1 g2 g3 : gmap string value) :
  binds_at_most_connection g1 g2 ->
  binds_at_most_connection g2 g3 ->
  binds_at_most_connection g1 g3.
Proof.
  intros [-> | [m ->]] [-> | [m' ->]].
  - left. reflexivity.
  - right. exists m'. reflexivity.
  - right. exists m. reflexivity.
  - right. exists m'. apply insert_insert_eq.
Qed.

(** A new binding of [connection] changes no other name. *)
Lemma lookup_but_connection (g g' : gmap string value) (name : string) :
  binds_at_most_connection g g' ->
  name <> "connection" ->
  g' !! name = g !! name.
Proof.
  intros [-> | [m ->]] Hname.
  - reflexivity.
  - apply lookup_insert_ne. congruence.
Qed.

Lemma globals_after_import_Connection_lookup (w w' : W)
  (g : gmap string value) (name : string) :
  name <> "connection" ->
  globals_after_import "gcloud.storage.connection" w w' g !! name = g !! name.
Proof.
  intros Hname.
  apply lookup_but_connection;
    [apply globals_after_import_Connection | exact Hname].
Qed.

Lemma bind_inl {A B} (m : M W E A) (k : A -> M W E B) s a s' :
  m s = (inl a, s') -> bind m k s = k a s'.
Proof. intros H. unfold bind. rewrite H. reflexivity. Qed.

Lemma bind_inr {A B} (m : M W E A) (k : A -> M W E B) s x s' :
  m s = (inr x, s') -> bind m k s = (inr x, s').
Proof. intros H. unfold bind. rewrite H. reflexivity. Qed.

Lemma replay_app (ops1 ops2 : list op) (w : W) :
  replay (ops1 ++ ops2) w = replay ops2 (replay ops1 w).
Proof.
  revert w. induction ops1 as [|o ops1 IH]; intros w; simpl.
  - reflexivity.
  - apply IH.
Qed.

(** The two-argument call of [get_connection] never enters its body. *)
Lemma get_connection_two_args (a b : value) (s : state W) :
  get_connection [a; b] s = (inr (TypeError_arity "get_connection" 3 2), s).
Proof. reflexivity. Qed.

Lemma get_bucket_run (bucket_name client_email private_key_path : value)
  (s : state W) :
  get_bucket [bucket_name; client_email; private_key_path] s =
  (inr (TypeError_arity "get_connection" 3 2), s).
Proof.
  unfold get_bucket, get_bucket_body.
  apply bind_inr, get_connection_two_args.
Qed.

End Runs.

(** ** No error handling: [faithful] follows the structure of the code *)

Section Faithful.
Context {W E : Type} {C : Collaborators W E}.

Lemma faithful_ret {A} (a : A) : faithful (ret a : M W E A).
Proof.
  intros s. exists []. simpl. rewrite app_nil_r.
  split; [reflexivity|]. split; [reflexivity|].
  split; [apply binds_at_most_connection_refl|].
  split.
  - intros pre o post e Hsplit _. destruct pre; discriminate.
  - intros e He. discriminate.
Qed.

Lemma faithful_raise_arity {A} (f : string) (n g : nat) :
  faithful (raise (TypeError_arity f n g) : M W E A).
Proof.
  intros s. exists []. simpl. rewrite app_nil_r.
  split; [reflexivity|]. split; [reflexivity|].
  split; [apply binds_at_most_connection_refl|].
  split.
  - intros pre o post e Hsplit _. destruct pre; discriminate.
  - intros e He. discriminate.
Qed.

Lemma faithful_load_global (name : string) :
  faithful (load_global name : M W E value).
Proof.
  intros s. exists []. unfold load_global.
  destruct (globals s !! name); simpl; rewrite app_nil_r;
    (split; [reflexivity|]; split; [reflexivity|];
     split; [apply binds_at_most_connection_refl|];
     split;
     [ intros pre o post e Hsplit _; destruct pre; discriminate
     | intros e He; discriminate ]).
Qed.

Lemma faithful_do_op (o : op) : faithful (do_op o : M W E value).
Proof.
  intros s. exists [o]. rewrite do_op_run. simpl.
  split; [reflexivity|]. split; [reflexivity|].
  split; [apply binds_at_most_connection_refl|].
  split.
  - intros pre o' post e Hsplit Hout.
    destruct pre as [|o'' pre]; simpl in Hsplit.
    + injection Hsplit as Ho Hpost. subst o'.
      split; [symmetry; exact Hpost|].
      unfold outcome_after in Hout. simpl in Hout. rewrite Hout.
      reflexivity.
    + injection Hsplit as _ Hpre. destruct pre; discriminate.
  - intros e He. exists [], o. split; [reflexivity|].
    unfold outcome_after. simpl.
    destruct (fst (perform o (world s))); simpl in He.
    + discriminate.
    + injection He as He. rewrite He. reflexivity.
Qed.

Lemma faithful_import_from (module name : string) :
  (forall w w' g,
      binds_at_most_connection g (globals_after_import module w w' g)) ->
  faithful (import_from module name : M W E value).
Proof.
  intros Hframe s. exists [ImportFrom module name].
  rewrite import_from_run. simpl.
  split; [reflexivity|]. split; [reflexivity|]. split; [apply Hframe|].
  split.
  - intros pre o' post e Hsplit Hout.
    destruct pre as [|o'' pre]; simpl in Hsplit.
    + injection Hsplit as Ho Hpost. subst o'.
      split; [symmetry; exact Hpost|].
      unfold outcome_after in Hout. simpl in Hout. rewrite Hout.
      reflexivity.
    + injection Hsplit as _ Hpre. destruct pre; discriminate.
  - intros e He. exists [], (ImportFrom module name). split; [reflexivity|].
    unfold outcome_after. simpl.
    destruct (fst (perform (ImportFrom module name) (world s)));
      simpl in He.
    + discriminate.
    + injection He as He. rewrite He. reflexivity.
Qed.

Lemma faithful_import_Credentials :
  faithful (import_from "gcloud.credentials" "Credentials" : M W E value).
Proof.
  apply faithful_import_from. intros w w' g.
  apply binds_at_most_connection_refl.
Qed.

Lemma faithful_import_Connection :
  faithful
    (import_from "gcloud.storage.connection" "Connection" : M W E value).
Proof.
  apply faithful_import_from. intros w w' g.
  apply globals_after_import_Connection.
Qed.

Lemma faithful_bind {A B} (m : M W E A) (k : A -> M W E B) :
  faithful m -> (forall a, faithful (k a)) -> faithful (bind m k).
Proof.
  intros Hm Hk s.
  destruct (Hm s) as (ops1 & Ht1 & Hw1 & Hg1 & Hstop1 & Hsrc1).
  unfold bind. destruct (m s) as [[a|x] s1] eqn:Em; simpl in *.
  - destruct (Hk a s1) as (ops2 & Ht2 & Hw2 & Hg2 & Hstop2 & Hsrc2).
    exists (ops1 ++ ops2). split; [|split; [|split; [|split]]].
    + rewrite Ht2, Ht1, app_assoc. reflexivity.
    + rewrite Hw2, Hw1, replay_app. reflexivity.
    + eapply binds_at_most_connection_trans; eassumption.
    + intros pre o post e Hsplit Hout.
      assert (Hin2 : exists pre2, pre = ops1 ++ pre2 /\ ops2 = pre2 ++ o :: post).
      { apply app_eq_app in Hsplit.
        destruct Hsplit as (l & [[Hops1 Hpost]|[Hpre Hops2]]).
        - destruct l as [|o' l]; simpl in Hpost.
          + exists []. rewrite app_nil_r in *. split; [symmetry; exact Hops1|].
            simpl. symmetry. exact Hpost.
          + injection Hpost as Ho Hpost. subst o'.
            destruct (Hstop1 pre o l e Hops1 Hout) as [_ Habs].
            discriminate.
        - exists l. split; [exact Hpre | exact Hops2]. }
      destruct Hin2 as (pre2 & -> & Hops2).
      apply (Hstop2 pre2 o post e Hops2).
      unfold outcome_after in *. rewrite replay_app, <- Hw1 in Hout.
      exact Hout.
    + intros e He. destruct (Hsrc2 e He) as (pre2 & o & Hops2 & Hout).
      exists (ops1 ++ pre2), o. split.
      * rewrite Hops2, app_assoc. reflexivity.
      * unfold outcome_after in *. rewrite replay_app, <- Hw1. exact Hout.
  - exists ops1. split; [exact Ht1|]. split; [exact Hw1|].
    split; [exact Hg1|]. split.
    + intros pre o post e Hsplit Hout.
      destruct (Hstop1 pre o post e Hsplit Hout) as [Hpost Hx].
      split; [exact Hpost|]. injection Hx as ->. reflexivity.
    + intros e He. apply Hsrc1. injection He as ->. reflexivity.
Qed.

Lemma faithful_get_connection (args : list value) :
  faithful (get_connection args).
Proof.
  unfold get_connection.
  destruct args as [|a [|b [|c [|d rest]]]].
  1-3: apply faithful_raise_arity.
  2: apply faithful_raise_arity.
  unfold get_connection_body, getattr, call.
  repeat (apply faithful_bind; [|intros ?]);
    first [ apply faithful_import_Credentials
          | apply faithful_import_Connection
          | apply faithful_do_op
          | apply faithful_load_global ].
Qed.

Lemma faithful_get_bucket (args : list value) :
  faithful (get_bucket args).
Proof.
  unfold get_bucket.
  destruct args as [|a [|b [|c [|d rest]]]].
  1-3: apply faithful_raise_arity.
  2: apply faithful_raise_arity.
  unfold get_bucket_body, getattr, call.
  repeat (apply faithful_bind; [|intros ?]);
    first [apply faithful_do_op | apply faithful_get_connection].
Qed.

End Faithful.

(** ** Only [SCOPE] and the world are read: [insensitive] follows the code *)

Section Insensitive.
Context {W E : Type} {C : Collaborators W E}.
Variable Rw : W -> W -> Prop.
Hypothesis perform_Rw :
  forall o w1 w2, Rw w1 w2 ->
    fst (perform o w1) = fst (perform o w2) /\
    Rw (snd (perform o w1)) (snd (perform o w2)).

Lemma insensitive_raise {A} (x : exn E) : insensitive Rw (raise x : M W E A).
Proof.
  intros s1 s2 Hag. simpl. split; [reflexivity|]. split; [exact Hag|].
  exists []. rewrite !app_nil_r. split; reflexivity.
Qed.

Lemma insensitive_load_SCOPE : insensitive Rw (load_global "SCOPE" : M W E value).
Proof.
  intros s1 s2 Hag. unfold load_global.
  pose proof Hag as [Hscope _]. rewrite Hscope.
  destruct (globals s2 !! "SCOPE"); simpl;
    (split; [reflexivity|]; split; [exact Hag|];
     exists []; rewrite !app_nil_r; split; reflexivity).
Qed.

Lemma insensitive_do_op (o : op) : insensitive Rw (do_op o : M W E value).
Proof.
  intros s1 s2 [Hscope Hw]. rewrite !do_op_run. simpl.
  destruct (perform_Rw o _ _ Hw) as [Hres Hw'].
  split; [rewrite Hres; reflexivity|].
  split; [split; [exact Hscope | exact Hw']|].
  exists [o]. split; reflexivity.
Qed.

Lemma insensitive_import_from (module name : string) :
  (forall w w' g,
      globals_after_import module w w' g !! "SCOPE" = g !! "SCOPE") ->
  insensitive Rw (import_from module name : M W E value).
Proof.
  intros Hframe s1 s2 [Hscope Hw]. rewrite !import_from_run. simpl.
  destruct (perform_Rw (ImportFrom module name) _ _ Hw) as [Hres Hw'].
  split; [rewrite Hres; reflexivity|].
  split; [split; [simpl; rewrite !Hframe; exact Hscope | exact Hw']|].
  exists [ImportFrom module name]. split; reflexivity.
Qed.

Lemma insensitive_import_Credentials :
  insensitive Rw
    (import_from "gcloud.credentials" "Credentials" : M W E value).
Proof. apply insensitive_import_from. reflexivity. Qed.

Lemma insensitive_import_Connection :
  insensitive Rw
    (import_from "gcloud.storage.connection" "Connection" : M W E value).
Proof.
  apply insensitive_import_from. intros w w' g.
  apply globals_after_import_Connection_lookup. discriminate.
Qed.

Lemma insensitive_bind {A B} (m : M W E A) (k : A -> M W E B) :
  insensitive Rw m -> (forall a, insensitive Rw (k a)) ->
  insensitive Rw (bind m k).
Proof.
  intros Hm Hk s1 s2 Hag.
  destruct (Hm s1 s2 Hag) as (Hr & Hag' & ops & Ht1 & Ht2).
  unfold bind.
  destruct (m s1) as [[a1|x1] s1'], (m s2) as [[a2|x2] s2'];
    simpl in *; try discriminate.
  - injection Hr as ->.
    destruct (Hk a2 s1' s2' Hag') as (Hr2 & Hag2 & ops2 & Ht1' & Ht2').
    split; [exact Hr2|]. split; [exact Hag2|].
    exists (ops ++ ops2). rewrite Ht1', Ht2', Ht1, Ht2, !app_assoc.
    split; reflexivity.
  - injection Hr as ->. split; [reflexivity|]. split; [exact Hag'|].
    exists ops. split; assumption.
Qed.

Lemma insensitive_get_connection (args : list value) :
  insensitive Rw (get_connection args).
Proof.
  unfold get_connection.
  destruct args as [|a [|b [|c [|d rest]]]].
  1-3: apply insensitive_raise.
  2: apply insensitive_raise.
  unfold get_connection_body, getattr, call.
  repeat (apply insensitive_bind; [|intros ?]);
    first [ apply insensitive_import_Credentials
          | apply insensitive_import_Connection
          | apply insensitive_do_op
          | apply insensitive_load_SCOPE ].
Qed.

Lemma insensitive_get_bucket (args : list value) :
  insensitive Rw (get_bucket args).
Proof.
  unfold get_bucket.
  destruct args as [|a [|b [|c [|d rest]]]].
  1-3: apply insensitive_raise.
  2: apply insensitive_raise.
  unfold get_bucket_body, getattr, call.
  repeat (apply insensitive_bind; [|intros ?]);
    first [apply insensitive_do_op | apply insensitive_get_connection].
Qed.

End Insensitive.

(** ** What the two functions do, for any collaborators *)

Section Claims.
Context {W E : Type} {C : Collaborators W E}.

Lemma new_ops_app (s s' : state W) (ops : list op) :
  trace s' = trace s ++ ops -> new_ops (length (trace s)) s' = ops.
Proof. intros H. unfold new_ops. rewrite H. apply drop_app_length. Qed.

Lemma faithful_frame {A} (m : M W E A) (s : state W) :
  faithful m ->
  binds_at_most_connection (globals s) (globals (snd (m s))) /\
  world (snd (m s)) =
    replay (new_ops (length (trace s)) (snd (m s))) (world s).
Proof.
  intros Hm. destruct (Hm s) as (ops & Ht & Hw & Hg & _).
  split; [exact Hg|]. rewrite (new_ops_app _ _ _ Ht). exact Hw.
Qed.


Lemma faithful_propagates {A} (m : M W E A) (s : state W)
  (pre : list op) (o : op) (post : list op) (e : E) :
  faithful m ->
  new_ops (length (trace s)) (snd (m s)) = pre ++ o :: post ->
  outcome_after pre o (world s) = inr e ->
  post = [] /\ fst (m s) = inr (Raised e).
Proof.
  intros Hm Hnew Hout. destruct (Hm s) as (ops & Ht & _ & _ & Hstop & _).
  rewrite (new_ops_app _ _ _ Ht) in Hnew.
  exact (Hstop pre o post e Hnew Hout).
Qed.

(** The run of [get_connection] up to the credential acquisition, when the
    names it needs resolve. *)
Lemma get_connection_run
  (project_name client_email private_key_path : value) (s : state W)
  (Credentials Connection acquire scope : value) (w1 w2 w3 : W) :
  globals s !! "SCOPE" = Some scope ->
  perform (ImportFrom "gcloud.credentials" "Credentials") (world s)
    = (inl Credentials, w1) ->
  perform (ImportFrom "gcloud.storage.connection" "Connection") w1
    = (inl Connection, w2) ->
  perform (GetAttr Credentials "get_for_service_account") w2
    = (inl acquire, w3) ->
  get_connection [project_name; client_email; private_key_path] s =
  bind (call acquire [client_email; private_key_path] [("scope", scope)])
    (fun credentials =>
       call Connection [] [("project_name", project_name);
                           ("credentials", credentials)])
    (State
       (globals_after_import "gcloud.storage.connection" w1 w2 (globals s))
       w3
       (trace s ++ [ImportFrom "gcloud.credentials" "Credentials";
                    ImportFrom "gcloud.storage.connection" "Connection";
                    GetAttr Credentials "get_for_service_account"])).
Proof.
  intros Hscope H1 H2 H3.
  unfold get_connection, get_connection_body, getattr.
  erewrite bind_inl; [|rewrite import_from_run, H1; reflexivity].
  erewrite bind_inl;
    [|rewrite import_from_run; simpl; rewrite H2; reflexivity].
  erewrite bind_inl; [|rewrite do_op_run; simpl; rewrite H3; reflexivity].
  erewrite bind_inl;
    [|unfold load_global; simpl;
      rewrite globals_after_import_Connection_lookup by discriminate;
      rewrite globals_after_import_Credentials, Hscope; reflexivity].
  simpl. rewrite <- !app_assoc. reflexivity.
Qed.

(** C2: when the imports and the lookup of [get_for_service_account] succeed,
    [get_connection(project_name, client_email, private_key_path)] calls the
    credential acquisition once, with exactly [client_email] and
    [private_key_path] as positional arguments and [scope=SCOPE]; if that
    returns [credentials], the only other call is the construction
    [Connection(project_name=project_name, credentials=credentials)] with
    that very object, and the function returns or raises what the
    construction did; if the acquisition raises, nothing is constructed. *)
Theorem get_connection_acquires_then_constructs
  (project_name client_email private_key_path : value) (s : state W)
  (Credentials Connection acquire : value) (w1 w2 w3 : W) :
  globals s !! "SCOPE" = Some SCOPE ->
  perform (ImportFrom "gcloud.credentials" "Credentials") (world s)
    = (inl Credentials, w1) ->
  perform (ImportFrom "gcloud.storage.connection" "Connection") w1
    = (inl Connection, w2) ->
  perform (GetAttr Credentials "get_for_service_account") w2
    = (inl acquire, w3) ->
  let acquisition :=
    Call acquire [client_email; private_key_path] [("scope", SCOPE)] in
  let r := get_connection [project_name; client_email; private_key_path] s in
  match perform acquisition w3 with
  | (inl credentials, w4) =>
      let construction :=
        Call Connection [] [("project_name", project_name);
                            ("credentials", credentials)] in
      calls_in (new_ops (length (trace s)) (snd r))
        = [acquisition; construction] /\
      fst r = lift (fst (perform construction w4)) /\
      world (snd r) = snd (perform construction w4)
  | (inr e, w4) =>
      calls_in (new_ops (length (trace s)) (snd r)) = [acquisition] /\
      fst r = inr (Raised e) /\
      world (snd r) = w4
  end.
Proof.
  intros Hscope H1 H2 H3 acquisition r. subst r acquisition.
  rewrite (get_connection_run _ _ _ s _ _ _ _ _ _ _ Hscope H1 H2 H3).
  unfold bind, call. rewrite !do_op_run. simpl.
  destruct (perform (Call acquire [client_email; private_key_path]
                       [("scope", SCOPE)]) w3) as [[credentials|e] w4]; simpl.
  - rewrite do_op_run. simpl.
    split; [|split; reflexivity].
    erewrite new_ops_app; [|simpl; rewrite <- !app_assoc; reflexivity].
    reflexivity.
  - split; [|split; reflexivity].
    erewrite new_ops_app; [|simpl; rewrite <- !app_assoc; reflexivity].
    reflexivity.
Qed.

(** C3: [get_bucket(bucket_name, client_email, private_key_path)] is the call
    [get_connection(client_email, private_key_path)], two positional
    arguments for three required parameters, and so raises the
    missing-argument error, whatever the arguments, the state and the
    collaborators. *)
Theorem get_bucket_raises_missing_argument
  (bucket_name client_email private_key_path : value) (s : state W) :
  get_bucket [bucket_name; client_email; private_key_path] s
    = get_connection [client_email; private_key_path] s /\
  fst (get_bucket [bucket_name; client_email; private_key_path] s)
    = inr (TypeError_arity "get_connection" 3 2).
Proof.
  rewrite get_bucket_run, get_connection_two_args. split; reflexivity.
Qed.

(** C7: neither function handles an error of a collaborator.  If an operation
    that [get_connection] or [get_bucket] performed raised [e], then it was
    the last operation performed (nothing is retried, nothing runs after it)
    and the function raised exactly [e]. *)
Theorem collaborator_errors_propagate_unmodified
  (fn : list value -> M W E value) (args : list value) (s : state W)
  (pre : list op) (o : op) (post : list op) (e : E) :
  fn = get_connection \/ fn = get_bucket ->
  new_ops (length (trace s)) (snd (fn args s)) = pre ++ o :: post ->
  outcome_after pre o (world s) = inr e ->
  post = [] /\ fst (fn args s) = inr (Raised e).
Proof.
  intros [-> | ->].
  - apply faithful_propagates, faithful_get_connection.
  - apply faithful_propagates, faithful_get_bucket.
Qed.


(** C9: when [get_bucket] raises the missing-argument error of its call of
    [get_connection], no collaborator has been invoked: the log of
    operations has not grown (no import, no credential acquisition, no
    construction, no bucket resolution) and the world is the same. *)
Theorem get_bucket_fails_before_collaborators
  (bucket_name client_email private_key_path : value) (s : state W) :
  let r := get_bucket [bucket_name; client_email; private_key_path] s in
  fst r = inr (TypeError_arity "get_connection" 3 2) ->
  new_ops (length (trace s)) (snd r) = [] /\
  calls_in (new_ops (length (trace s)) (snd r)) = [] /\
  world (snd r) = world s.
Proof.
  intros r _. subst r. rewrite get_bucket_run. simpl.
  unfold new_ops. rewrite drop_all. repeat split.
Qed.

End Claims.

(** ** What the two functions read *)

Section Reads.
Context {W E : Type} {C : Collaborators W E}.

Lemma perform_eq (o : op) (w1 w2 : W) :
  w1 = w2 ->
  fst (perform o w1) = fst (perform o w2) /\
  snd (perform o w1) = snd (perform o w2).
Proof. intros ->. split; reflexivity. Qed.

Lemma insensitive_same_world {A} (m : M W E A) (s1 s2 : state W) :
  insensitive eq m ->
  globals s1 !! "SCOPE" = globals s2 !! "SCOPE" ->
  world s1 = world s2 ->
  fst (m s1) = fst (m s2) /\
  world (snd (m s1)) = world (snd (m s2)) /\
  new_ops (length (trace s1)) (snd (m s1))
    = new_ops (length (trace s2)) (snd (m s2)).
Proof.
  intros Hm Hscope Hw.
  destruct (Hm s1 s2 (conj Hscope Hw)) as (Hr & [_ Hw'] & ops & Ht1 & Ht2).
  split; [exact Hr|]. split; [exact Hw'|].
  rewrite (new_ops_app _ _ _ Ht1), (new_ops_app _ _ _ Ht2). reflexivity.
Qed.

(** C6: [SCOPE] is the pair of the full-control and the read-write scope
    URIs, in this order, and it is the only configuration the two functions
    consult: run from the same world in two states that bind [SCOPE] alike,
    whatever else their globals hold, [get_connection] and [get_bucket]
    return or raise the same, perform the same operations and leave the
    same world. *)
Theorem SCOPE_is_the_only_configuration
  (args : list value) (s1 s2 : state W) :
  globals s1 !! "SCOPE" = globals s2 !! "SCOPE" ->
  world s1 = world s2 ->
  (SCOPE =
     VTuple [VStr "https://www.googleapis.com/auth/devstorage.full_control";
             VStr "https://www.googleapis.com/auth/devstorage.read_write"] /\
   module_globals !! "SCOPE" = Some SCOPE) /\
  (fst (get_connection args s1) = fst (get_connection args s2) /\
   world (snd (get_connection args s1))
     = world (snd (get_connection args s2)) /\
   new_ops (length (trace s1)) (snd (get_connection args s1))
     = new_ops (length (trace s2)) (snd (get_connection args s2))) /\
  (fst (get_bucket args s1) = fst (get_bucket args s2) /\
   world (snd (get_bucket args s1)) = world (snd (get_bucket args s2)) /\
   new_ops (length (trace s1)) (snd (get_bucket args s1))
     = new_ops (length (trace s2)) (snd (get_bucket args s2))).
Proof.
  intros Hscope Hw. split; [|split].
  - split; [reflexivity|]. unfold module_globals. apply lookup_insert_eq.
  - apply insensitive_same_world; [|exact Hscope|exact Hw].
    apply insensitive_get_connection. exact perform_eq.
  - apply insensitive_same_world; [|exact Hscope|exact Hw].
    apply insensitive_get_bucket. exact perform_eq.
Qed.

(** C10: with collaborators that are functions of their arguments (what an
    operation returns or raises does not depend on the world), the result of
    [get_connection] is a function of its arguments and of [SCOPE]: two calls
    with equal arguments give equal results, from any two states that bind
    [SCOPE] alike, and in particular when the second call follows the
    first. *)
Theorem get_connection_deterministic
  (args : list value) (s1 s2 : state W) :
  (forall o w1 w2, fst (perform o w1) = fst (perform o w2)) ->
  globals s1 !! "SCOPE" = globals s2 !! "SCOPE" ->
  fst (get_connection args s1) = fst (get_connection args s2) /\
  fst (get_connection args (snd (get_connection args s1)))
    = fst (get_connection args s1).
Proof.
  intros Hdet Hscope.
  assert (Hins : insensitive (fun _ _ => True) (get_connection args)).
  { apply insensitive_get_connection. intros o w1 w2 _.
    split; [apply Hdet | exact I]. }
  split.
  - apply Hins. split; [exact Hscope | exact I].
  - apply Hins. split; [|exact I].
    destruct (faithful_frame _ s1 (faithful_get_connection args)) as [Hg _].
    apply (lookup_but_connection _ _ _ Hg). discriminate.
Qed.

End Reads.

(** ** The functions against the fake collaborators *)

Lemma fake_new_ops (n : nat) (t ops : list op) (g : gmap string value)
  (w : nat) :
  new_ops (length t) (State g w (t ++ ops)) = ops.
Proof. apply (new_ops_app (State g n t)). reflexivity. Qed.

(** C1 (the code departs from it): with the fake collaborators,
    [get_bucket('b', 'e@x', '/k')] raises the missing-argument error, while
    the chain [get_connection('proj', 'e@x', '/k').get_bucket('b')] returns
    the sentinel bucket: the two do not produce the same bucket handle. *)
Theorem get_bucket_is_not_the_chain :
  fst (get_bucket (C := Fake.collaborators)
         [VStr "b"; VStr "e@x"; VStr "/k"] Fake.s0)
    = inr (TypeError_arity "get_connection" 3 2) /\
  fst (get_bucket_chained (C := Fake.collaborators)
         (VStr "proj") (VStr "b") (VStr "e@x") (VStr "/k") Fake.s0)
    = inl Fake.BUCKET /\
  fst (get_bucket (C := Fake.collaborators)
         [VStr "b"; VStr "e@x"; VStr "/k"] Fake.s0)
    <> fst (get_bucket_chained (C := Fake.collaborators)
              (VStr "proj") (VStr "b") (VStr "e@x") (VStr "/k") Fake.s0).
Proof.
  split; [reflexivity|]. split; [reflexivity|]. discriminate.
Qed.

(** C4 (the code departs from it): with the fake collaborators,
    [get_bucket('b', 'email@x', '/key')] performs no operation at all, so the
    bucket-resolution method is called zero times, not once; the chain
    through a three-argument [get_connection] calls it once, with ['b']. *)
Theorem get_bucket_never_resolves_the_bucket :
  let r := get_bucket (C := Fake.collaborators)
             [VStr "b"; VStr "email@x"; VStr "/key"] Fake.s0 in
  let chain := get_bucket_chained (C := Fake.collaborators)
                 (VStr "proj") (VStr "b") (VStr "email@x") (VStr "/key")
                 Fake.s0 in
  trace (snd r) = [] /\
  length (calls_of 21 (trace (snd r))) = 0 /\
  calls_of 21 (trace (snd chain)) = [Call Fake.resolve_fn [VStr "b"] []].
Proof. repeat split. Qed.

(** C5: with the fake collaborators, from any count of earlier operations
    and any earlier log, [get_connection('proj', 'e@x', '/k')] returns the
    sentinel connection, and the only call of the fake [Connection] class is
    the construction with [project_name='proj'] and the sentinel
    credentials. *)
Theorem fake_get_connection_returns_sentinel (n : nat) (t : list op) :
  let r := get_connection (C := Fake.collaborators)
             [VStr "proj"; VStr "e@x"; VStr "/k"]
             (State module_globals n t) in
  fst r = inl Fake.CONN /\
  calls_of 2 (new_ops (length t) (snd r))
    = [Call Fake.ConnectionClass []
         [("project_name", VStr "proj"); ("credentials", Fake.CRED)]].
Proof.
  intros r. subst r.
  rewrite (get_connection_run (C := Fake.collaborators) _ _ _
             (State module_globals n t)
             Fake.CredentialsClass Fake.ConnectionClass Fake.acquire_fn SCOPE
             (S n) (S (S n)) (S (S (S n))));
    [|reflexivity..].
  unfold bind, call. rewrite !do_op_run. simpl.
  split; [reflexivity|].
  rewrite <- !app_assoc. simpl. rewrite (fake_new_ops n). reflexivity.
Qed.

(** ** The general statements at the fake collaborators *)

Lemma get_connection_acquires_then_constructs_witness :
  let r := get_connection (C := Fake.collaborators)
             [VStr "proj"; VStr "e@x"; VStr "/k"] Fake.s0 in
  calls_in (new_ops 0 (snd r))
    = [Call Fake.acquire_fn [VStr "e@x"; VStr "/k"] [("scope", SCOPE)];
       Call Fake.ConnectionClass []
         [("project_name", VStr "proj"); ("credentials", Fake.CRED)]] /\
  fst r = inl Fake.CONN /\
  world (snd r) = 5.
Proof.
  apply (get_connection_acquires_then_constructs (C := Fake.collaborators)
           (VStr "proj") (VStr "e@x") (VStr "/k") Fake.s0
           Fake.CredentialsClass Fake.ConnectionClass Fake.acquire_fn 1 2 3);
    reflexivity.
Defined.

Lemma collaborator_errors_propagate_unmodified_witness :
  @nil op = [] /\
  fst (get_connection (C := Fake.bad_key)
         [VStr "proj"; VStr "e@x"; VStr "/k"] Fake.s0)
    = inr (Raised "CredentialsError: bad private key").
Proof.
  apply (collaborator_errors_propagate_unmodified (C := Fake.bad_key)
           get_connection [VStr "proj"; VStr "e@x"; VStr "/k"] Fake.s0
           [ImportFrom "gcloud.credentials" "Credentials";
            ImportFrom "gcloud.storage.connection" "Connection";
            GetAttr Fake.CredentialsClass "get_for_service_account"]
           (Call Fake.acquire_fn [VStr "e@x"; VStr "/k"] [("scope", SCOPE)])
           [] "CredentialsError: bad private key").
  - left. reflexivity.
  - reflexivity.
  - reflexivity.
Defined.

Lemma get_bucket_fails_before_collaborators_witness :
  let r := get_bucket (C := Fake.collaborators)
             [VStr "b"; VStr "email@x"; VStr "/key"] Fake.s0 in
  fst r = inr (TypeError_arity "get_connection" 3 2) /\
  new_ops 0 (snd r) = [] /\
  calls_in (new_ops 0 (snd r)) = [] /\
  world (snd r) = 0.
Proof.
  split; [reflexivity|].
  apply (get_bucket_fails_before_collaborators (C := Fake.collaborators)
           (VStr "b") (VStr "email@x") (VStr "/key") Fake.s0).
  reflexivity.
Defined.

Lemma SCOPE_is_the_only_configuration_witness :
  let args := [VStr "proj"; VStr "e@x"; VStr "/k"] in
  let s2 : state nat :=
    State (<["DEBUG" := VStr "1"]> (<["__version__" := VStr "9.9"]>
             module_globals)) 0 [ImportFrom "os" "environ"] in
  module_globals !! "SCOPE" = Some SCOPE /\
  fst (get_connection (C := Fake.collaborators) args Fake.s0)
    = fst (get_connection (C := Fake.collaborators) args s2) /\
  fst (get_bucket (C := Fake.collaborators) args Fake.s0)
    = fst (get_bucket (C := Fake.collaborators) args s2).
Proof.
  intros args s2.
  destruct (SCOPE_is_the_only_configuration (C := Fake.collaborators)
              args Fake.s0 s2) as [[_ Hscope] [[Hc _] [Hb _]]].
  - vm_compute. reflexivity.
  - reflexivity.
  - split; [exact Hscope|]. split; [exact Hc | exact Hb].
Defined.

Lemma get_connection_deterministic_witness :
  let args := [VStr "proj"; VStr "e@x"; VStr "/k"] in
  let s2 : state nat :=
    State module_globals 7 [ImportFrom "os" "environ"] in
  fst (get_connection (C := Fake.collaborators) args Fake.s0)
    = fst (get_connection (C := Fake.collaborators) args s2) /\
  fst (get_connection (C := Fake.collaborators) args
         (snd (get_connection (C := Fake.collaborators) args Fake.s0)))
    = fst (get_connection (C := Fake.collaborators) args Fake.s0).
Proof.
  intros args s2.
  apply (get_connection_deterministic (C := Fake.collaborators)
           args Fake.s0 s2).
  - intros o w1 w2. reflexivity.
  - reflexivity.
Defined.

(** * Further properties of the two functions *)

(** ** Every run of the body of [get_connection] is one of the six cases *)

Section Runs_classified.
Context {W E : Type} {C : Collaborators W E}.

Lemma do_op_ok (o : op) (s : state W) (v : value) (w : W) :
  perform o (world s) = (inl v, w) ->
  do_op o s = (inl v, State (globals s) w (trace s ++ [o])).
Proof. intros H. rewrite do_op_run, H. reflexivity. Qed.

Lemma do_op_raises (o : op) (s : state W) (x : E) (w : W) :
  perform o (world s) = (inr x, w) ->
  do_op o s = (inr (Raised x), State (globals s) w (trace s ++ [o])).
Proof. intros H. rewrite do_op_run, H. reflexivity. Qed.

Lemma import_from_ok (module name : string) (s : state W) (v : value)
  (w : W) :
  perform (ImportFrom module name) (world s) = (inl v, w) ->
  import_from module name s =
  (inl v, State (globals_after_import module (world s) w (globals s)) w
            (trace s ++ [ImportFrom module name])).
Proof. intros H. rewrite import_from_run, H. reflexivity. Qed.

Lemma import_from_raises (module name : string) (s : state W) (x : E)
  (w : W) :
  perform (ImportFrom module name) (world s) = (inr x, w) ->
  import_from module name s =
  (inr (Raised x),
   State (globals_after_import module (world s) w (globals s)) w
     (trace s ++ [ImportFrom module name])).
Proof. intros H. rewrite import_from_run, H. reflexivity. Qed.

Lemma new_ops_State (s : state W) (g : gmap string value) (w : W)
  (ops : list op) :
  new_ops (length (trace s)) (State g w (trace s ++ ops)) = ops.
Proof. apply new_ops_app. reflexivity. Qed.

Lemma get_connection_body_runs
  (project_name client_email private_key_path : value) (s : state W) :
  let r := get_connection_body project_name client_email private_key_path s in
  body_run project_name client_email private_key_path s
    (fst r) (new_ops (length (trace s)) (snd r)) (world (snd r)) /\
  binds_at_most_connection (globals s) (globals (snd r)).
Proof.
  split.
  2: { apply (faithful_frame _ s
                (faithful_get_connection
                   [project_name; client_email; private_key_path])). }
  unfold get_connection_body, getattr, call. simpl.
  destruct (perform import_Credentials (world s)) as [[Cr|x] w1] eqn:H1.
  2: { erewrite bind_inr; [|apply import_from_raises, H1]. simpl.
       rewrite new_ops_State. apply run_no_Credentials, H1. }
  erewrite bind_inl; [|apply import_from_ok, H1].
  destruct (perform import_Connection w1) as [[Co|x] w2] eqn:H2.
  2: { erewrite bind_inr; [|apply import_from_raises, H2]. simpl.
       rewrite <- !app_assoc, new_ops_State.
       eapply run_no_Connection; eassumption. }
  erewrite bind_inl; [|apply import_from_ok, H2].
  fold (lookup_acquire Cr).
  destruct (perform (lookup_acquire Cr) w2) as [[f|x] w3] eqn:H3.
  2: { erewrite bind_inr; [|apply do_op_raises, H3]. simpl.
       rewrite <- !app_assoc, new_ops_State.
       eapply run_no_attribute; eassumption. }
  erewrite bind_inl; [|apply do_op_ok, H3].
  destruct (globals s !! "SCOPE") as [scope|] eqn:Hscope.
  2: { erewrite bind_inr;
         [|unfold load_global; simpl;
           rewrite globals_after_import_Connection_lookup by discriminate;
           rewrite globals_after_import_Credentials, Hscope; reflexivity].
       simpl. rewrite <- !app_assoc, new_ops_State.
       eapply run_no_SCOPE; eassumption. }
  erewrite bind_inl;
    [|unfold load_global; simpl;
      rewrite globals_after_import_Connection_lookup by discriminate;
      rewrite globals_after_import_Credentials, Hscope; reflexivity].
  fold (acquisition f client_email private_key_path scope).
  destruct (perform (acquisition f client_email private_key_path scope) w3)
    as [[c|x] w4] eqn:H4.
  2: { erewrite bind_inr; [|apply do_op_raises, H4]. simpl.
       rewrite <- !app_assoc, new_ops_State.
       eapply run_no_credentials; eassumption. }
  erewrite bind_inl; [|apply do_op_ok, H4].
  fold (construction Co project_name c).
  rewrite do_op_run. simpl.
  rewrite <- !app_assoc, new_ops_State.
  eapply run_constructed; try eassumption.
  apply surjective_pairing.
Qed.

End Runs_classified.

(** ** Consequences for [get_connection] *)

Section More_of_get_connection.
Context {W E : Type} {C : Collaborators W E}.

(** Reads the outcomes of a log back through the equations of a run. *)
Ltac read_back :=
  unfold outcome_after; simpl;
  repeat match goal with
         | H : perform _ _ = _ |- _ => rewrite H; simpl
         end;
  try reflexivity.

(** X1: a call of [get_connection] with three arguments always performs the
    import of [Credentials] first, and whatever it performs is an initial
    part of the five-operation script of lines 62-67, each operation built
    from what the earlier ones returned: the attribute is looked up on what
    the import of [Credentials] returned, the acquisition calls what that
    lookup returned, with the value bound to [SCOPE], and the construction
    calls what the import of [Connection] returned, with what the acquisition
    returned.  It makes at most two calls. *)
Theorem get_connection_follows_script
  (project_name client_email private_key_path : value) (s : state W) :
  let r := get_connection [project_name; client_email; private_key_path] s in
  let ops := new_ops (length (trace s)) (snd r) in
  exists Credentials Connection acquire scope credentials rest,
    ops `prefix_of` script project_name client_email private_key_path
                      Credentials Connection acquire scope credentials /\
    ops = import_Credentials :: rest /\
    length (calls_in ops) <= 2 /\
    (2 < length ops ->
     outcome_after [] import_Credentials (world s) = inl Credentials /\
     outcome_after [import_Credentials] import_Connection (world s)
       = inl Connection) /\
    (3 < length ops ->
     outcome_after [import_Credentials; import_Connection]
       (lookup_acquire Credentials) (world s) = inl acquire /\
     globals s !! "SCOPE" = Some scope) /\
    (4 < length ops ->
     outcome_after
       [import_Credentials; import_Connection; lookup_acquire Credentials]
       (acquisition acquire client_email private_key_path scope) (world s)
       = inl credentials).
Proof.
  pose proof (get_connection_body_runs project_name client_email
                private_key_path s) as [Hrun _].
  cbv zeta in *.
  change (get_connection [project_name; client_email; private_key_path] s)
    with (get_connection_body project_name client_email private_key_path s).
  destruct Hrun
    as [ x w1 H1
       | Cr w1 x w2 H1 H2
       | Cr w1 Co w2 x w3 H1 H2 H3
       | Cr w1 Co w2 f w3 H1 H2 H3 Hs
       | Cr w1 Co w2 f w3 scope x w4 H1 H2 H3 Hs H4
       | Cr w1 Co w2 f w3 scope c w4 r w5 H1 H2 H3 Hs H4 H5 ].
  - exists VNone, VNone, VNone, VNone, VNone, [].
    split; [eexists; reflexivity|]. split; [reflexivity|].
    split; [simpl; lia|]. split; [|split]; simpl; intros Hlen; lia.
  - exists Cr, VNone, VNone, VNone, VNone, [import_Connection].
    split; [eexists; reflexivity|]. split; [reflexivity|].
    split; [simpl; lia|]. split; [|split]; simpl; intros Hlen; lia.
  - exists Cr, Co, VNone, VNone, VNone,
      [import_Connection; lookup_acquire Cr].
    split; [eexists; reflexivity|]. split; [reflexivity|].
    split; [simpl; lia|].
    split; [intros _; split; read_back|].
    split; simpl; intros Hlen; lia.
  - exists Cr, Co, VNone, VNone, VNone,
      [import_Connection; lookup_acquire Cr].
    split; [eexists; reflexivity|]. split; [reflexivity|].
    split; [simpl; lia|].
    split; [intros _; split; read_back|].
    split; simpl; intros Hlen; lia.
  - exists Cr, Co, f, scope, VNone,
      [import_Connection; lookup_acquire Cr;
       acquisition f client_email private_key_path scope].
    split; [eexists; reflexivity|]. split; [reflexivity|].
    split; [simpl; lia|].
    split; [intros _; split; read_back|].
    split; [intros _; split; [read_back | exact Hs]|].
    simpl; intros Hlen; lia.
  - exists Cr, Co, f, scope, c,
      [import_Connection; lookup_acquire Cr;
       acquisition f client_email private_key_path scope;
       construction Co project_name c].
    split; [exists []; rewrite app_nil_r; reflexivity|].
    split; [reflexivity|]. split; [simpl; lia|].
    split; [intros _; split; read_back|].
    split; [intros _; split; [read_back | exact Hs]|].
    intros _. read_back.
Qed.

(** X2: [get_connection] calls nothing unless both imports and the lookup of
    [get_for_service_account] succeeded and [SCOPE] is bound; its first call
    is then the credential acquisition, with the value [SCOPE] is bound to
    when the function runs. *)
Theorem get_connection_calls_need_resolution
  (project_name client_email private_key_path : value) (s : state W) :
  let r := get_connection [project_name; client_email; private_key_path] s in
  calls_in (new_ops (length (trace s)) (snd r)) <> [] ->
  exists Credentials w1 Connection w2 acquire w3 scope,
    perform import_Credentials (world s) = (inl Credentials, w1) /\
    perform import_Connection w1 = (inl Connection, w2) /\
    perform (lookup_acquire Credentials) w2 = (inl acquire, w3) /\
    globals s !! "SCOPE" = Some scope /\
    head (calls_in (new_ops (length (trace s)) (snd r)))
      = Some (acquisition acquire client_email private_key_path scope).
Proof.
  pose proof (get_connection_body_runs project_name client_email
                private_key_path s) as [Hrun _].
  cbv zeta in *.
  change (get_connection [project_name; client_email; private_key_path] s)
    with (get_connection_body project_name client_email private_key_path s).
  destruct Hrun; intros Hcalls;
    try (exfalso; apply Hcalls; reflexivity).
  - exists Credentials, w1, Connection, w2, acquire, w3, scope.
    repeat (split; [assumption|]). reflexivity.
  - exists Credentials, w1, Connection, w2, acquire, w3, scope.
    repeat (split; [assumption|]). reflexivity.
Qed.

(** X3: when the names resolve but the global [SCOPE] is unbound,
    [get_connection] raises [NameError] for [SCOPE] after the two imports and
    the attribute lookup and before any call: no credentials are acquired
    and nothing is constructed. *)
Theorem get_connection_unbound_SCOPE
  (project_name client_email private_key_path : value) (s : state W)
  (Credentials Connection acquire : value) (w1 w2 w3 : W) :
  perform import_Credentials (world s) = (inl Credentials, w1) ->
  perform import_Connection w1 = (inl Connection, w2) ->
  perform (lookup_acquire Credentials) w2 = (inl acquire, w3) ->
  globals s !! "SCOPE" = None ->
  let r := get_connection [project_name; client_email; private_key_path] s in
  fst r = inr (NameError "SCOPE") /\
  new_ops (length (trace s)) (snd r)
    = [import_Credentials; import_Connection; lookup_acquire Credentials] /\
  calls_in (new_ops (length (trace s)) (snd r)) = [] /\
  world (snd r) = w3.
Proof.
  intros H1 H2 H3 Hnone.
  pose proof (get_connection_body_runs project_name client_email
                private_key_path s) as [Hrun _].
  cbv zeta in *.
  change (get_connection [project_name; client_email; private_key_path] s)
    with (get_connection_body project_name client_email private_key_path s).
  destruct Hrun; try congruence.
  assert (Credentials0 = Credentials) as -> by congruence.
  assert (w0 = w1) as -> by congruence.
  assert (w4 = w2) as -> by congruence.
  split; [reflexivity|]. split; [reflexivity|]. split; [reflexivity|].
  congruence.
Qed.

(** X4: a value that [get_connection] returns is the value the construction
    [Connection(project_name=project_name, credentials=credentials)]
    returned, where [Connection] is what the import at line 63 returned and
    [credentials] is what the acquisition returned, called on the attribute
    [get_for_service_account] of what the import at line 62 returned; all
    five operations of the script were performed, and no other. *)
Theorem get_connection_returns_the_constructed
  (project_name client_email private_key_path : value) (s : state W)
  (v : value) :
  let r := get_connection [project_name; client_email; private_key_path] s in
  fst r = inl v ->
  exists Credentials Connection acquire scope credentials,
    globals s !! "SCOPE" = Some scope /\
    new_ops (length (trace s)) (snd r)
      = script project_name client_email private_key_path
          Credentials Connection acquire scope credentials /\
    outcome_after [] import_Credentials (world s) = inl Credentials /\
    outcome_after [import_Credentials] import_Connection (world s)
      = inl Connection /\
    outcome_after [import_Credentials; import_Connection]
      (lookup_acquire Credentials) (world s) = inl acquire /\
    outcome_after
      [import_Credentials; import_Connection; lookup_acquire Credentials]
      (acquisition acquire client_email private_key_path scope) (world s)
      = inl credentials /\
    outcome_after
      [import_Credentials; import_Connection; lookup_acquire Credentials;
       acquisition acquire client_email private_key_path scope]
      (construction Connection project_name credentials) (world s)
      = inl v.
Proof.
  pose proof (get_connection_body_runs project_name client_email
                private_key_path s) as [Hrun _].
  cbv zeta in *.
  change (get_connection [project_name; client_email; private_key_path] s)
    with (get_connection_body project_name client_email private_key_path s).
  destruct Hrun as [| | | | |Cr w1 Co w2 f w3 scope c w4 r w5 H1 H2 H3 Hs H4 H5];
    intros Hv; try discriminate.
  exists Cr, Co, f, scope, c.
  split; [exact Hs|]. split; [reflexivity|].
  split; [read_back|]. split; [read_back|]. split; [read_back|].
  split; [read_back|].
  read_back. destruct r; simpl in Hv; [congruence | discriminate].
Qed.

(** X5: called with three arguments, [get_connection] raises nothing of its
    own but [NameError] for an unbound [SCOPE]: any other exception is one a
    collaborator raised. *)
Theorem get_connection_own_errors
  (project_name client_email private_key_path : value) (s : state W)
  (x : exn E) :
  let r := get_connection [project_name; client_email; private_key_path] s in
  fst r = inr x ->
  (exists e, x = Raised e) \/
  (x = NameError "SCOPE" /\ globals s !! "SCOPE" = None).
Proof.
  pose proof (get_connection_body_runs project_name client_email
                private_key_path s) as [Hrun _].
  cbv zeta in *.
  change (get_connection [project_name; client_email; private_key_path] s)
    with (get_connection_body project_name client_email private_key_path s).
  destruct Hrun as [| | | | |Cr w1 Co w2 f w3 scope c w4 r w5 H1 H2 H3 Hs H4 H5];
    intros Hx.
  1-3, 5: left; eexists; symmetry; injection Hx as Hx; exact Hx.
  - right. split; [congruence | assumption].
  - destruct r as [v|e]; simpl in Hx; [discriminate|].
    left. exists e. congruence.
Qed.

(** X8: when the import of [Connection] fails, [get_connection] raises that
    error at once: [Credentials] has been imported but is never used, so no
    attribute is looked up and no credentials are acquired. *)
Theorem get_connection_without_Connection
  (project_name client_email private_key_path : value) (s : state W)
  (Credentials : value) (x : E) (w1 w2 : W) :
  perform import_Credentials (world s) = (inl Credentials, w1) ->
  perform import_Connection w1 = (inr x, w2) ->
  let r := get_connection [project_name; client_email; private_key_path] s in
  fst r = inr (Raised x) /\
  new_ops (length (trace s)) (snd r)
    = [import_Credentials; import_Connection] /\
  world (snd r) = w2.
Proof.
  intros H1 H2.
  pose proof (get_connection_body_runs project_name client_email
                private_key_path s) as [Hrun _].
  cbv zeta in *.
  change (get_connection [project_name; client_email; private_key_path] s)
    with (get_connection_body project_name client_email private_key_path s).
  destruct Hrun; try congruence.
  assert (w0 = w1) as -> by congruence.
  repeat split; congruence.
Qed.

(** X7: [get_connection] leaves the collaborators alone exactly when it is
    not given three arguments, and that is exactly when it raises the
    missing-argument error, which carries the number of arguments given. *)
Theorem get_connection_arity (args : list value) (s : state W) :
  (new_ops (length (trace s)) (snd (get_connection args s)) = []
   <-> length args <> 3) /\
  (fst (get_connection args s)
     = inr (TypeError_arity "get_connection" 3 (length args))
   <-> length args <> 3).
Proof.
  destruct args as [|a [|b [|c [|d rest]]]].
  1-3, 5: simpl; unfold new_ops; simpl; rewrite drop_all;
          split; (split; [intros _; lia | reflexivity]).
  pose proof (get_connection_body_runs a b c s) as [Hrun _].
  cbv zeta in *.
  change (get_connection [a; b; c] s) with (get_connection_body a b c s).
  destruct Hrun as [| | | | |Cr w1 Co w2 f w3 sc cr w4 r w5 H1 H2 H3 Hs H4 H5];
    (split; (split; [|simpl; lia])); try discriminate.
  destruct r; discriminate.
Qed.

End More_of_get_connection.

(** ** Consequence for [get_bucket] *)

(** X6: [get_bucket] never returns a bucket and never touches the state,
    whatever it is given: with three arguments it raises the
    missing-argument error of [get_connection], with any other number its
    own. *)
Theorem get_bucket_never_returns {W E : Type} {C : Collaborators W E}
  (args : list value) (s : state W) :
  snd (get_bucket args s) = s /\
  fst (get_bucket args s)
    = inr (if Nat.eqb (length args) 3
           then TypeError_arity "get_connection" 3 2
           else TypeError_arity "get_bucket" 3 (length args)) /\
  (forall v, fst (get_bucket args s) <> inl v).
Proof.
  destruct args as [|a [|b [|c [|d rest]]]].
  1-3, 5: repeat split; discriminate.
  rewrite get_bucket_run. repeat split. discriminate.
Qed.

(** ** The further statements at concrete collaborators *)

Lemma get_connection_calls_need_resolution_witness :
  calls_in (new_ops 0 (snd (get_connection (C := Fake.collaborators)
                              [VStr "proj"; VStr "e@x"; VStr "/k"] Fake.s0)))
    <> [] /\
  exists Credentials w1 Connection w2 acquire w3 scope,
    perform (Collaborators := Fake.collaborators) import_Credentials 0
      = (inl Credentials, w1) /\
    perform (Collaborators := Fake.collaborators) import_Connection w1
      = (inl Connection, w2) /\
    perform (Collaborators := Fake.collaborators)
      (lookup_acquire Credentials) w2 = (inl acquire, w3) /\
    module_globals !! "SCOPE" = Some scope /\
    head (calls_in (new_ops 0 (snd (get_connection (C := Fake.collaborators)
                              [VStr "proj"; VStr "e@x"; VStr "/k"] Fake.s0))))
      = Some (acquisition acquire (VStr "e@x") (VStr "/k") scope).
Proof.
  split; [discriminate|].
  apply (get_connection_calls_need_resolution (C := Fake.collaborators)
           (VStr "proj") (VStr "e@x") (VStr "/k") Fake.s0).
  discriminate.
Defined.

Lemma get_connection_unbound_SCOPE_witness :
  let r := get_connection (C := Fake.collaborators)
             [VStr "proj"; VStr "e@x"; VStr "/k"] Broken.s_unbound in
  fst r = inr (NameError "SCOPE") /\
  new_ops 0 (snd r)
    = [import_Credentials; import_Connection;
       lookup_acquire Fake.CredentialsClass] /\
  calls_in (new_ops 0 (snd r)) = [] /\
  world (snd r) = 3.
Proof.
  apply (get_connection_unbound_SCOPE (C := Fake.collaborators)
           (VStr "proj") (VStr "e@x") (VStr "/k") Broken.s_unbound
           Fake.CredentialsClass Fake.ConnectionClass Fake.acquire_fn 1 2 3);
    reflexivity.
Defined.

Lemma get_connection_returns_the_constructed_witness :
  exists Credentials Connection acquire scope credentials,
    module_globals !! "SCOPE" = Some scope /\
    new_ops 0 (snd (get_connection (C := Fake.collaborators)
                      [VStr "proj"; VStr "e@x"; VStr "/k"] Fake.s0))
      = script (VStr "proj") (VStr "e@x") (VStr "/k")
          Credentials Connection acquire scope credentials /\
    outcome_after (C := Fake.collaborators) [] import_Credentials 0
      = inl Credentials /\
    outcome_after (C := Fake.collaborators)
      [import_Credentials] import_Connection 0 = inl Connection /\
    outcome_after (C := Fake.collaborators)
      [import_Credentials; import_Connection]
      (lookup_acquire Credentials) 0 = inl acquire /\
    outcome_after (C := Fake.collaborators)
      [import_Credentials; import_Connection; lookup_acquire Credentials]
      (acquisition acquire (VStr "e@x") (VStr "/k") scope) 0
      = inl credentials /\
    outcome_after (C := Fake.collaborators)
      [import_Credentials; import_Connection; lookup_acquire Credentials;
       acquisition acquire (VStr "e@x") (VStr "/k") scope]
      (construction Connection (VStr "proj") credentials) 0
      = inl Fake.CONN.
Proof.
  apply (get_connection_returns_the_constructed (C := Fake.collaborators)
           (VStr "proj") (VStr "e@x") (VStr "/k") Fake.s0 Fake.CONN).
  reflexivity.
Defined.

Lemma get_connection_own_errors_witness :
  (exists e, @Raised string "Failure" = Raised e) \/
  (@Raised string "Failure" = NameError "SCOPE" /\
   module_globals !! "SCOPE" = None).
Proof.
  apply (get_connection_own_errors
           (C := Broken.failing Broken.is_attribute_lookup)
           (VStr "proj") (VStr "e@x") (VStr "/k") Fake.s0 (Raised "Failure")).
  reflexivity.
Defined.

Lemma get_connection_without_Connection_witness :
  let r := get_connection
             (C := Broken.failing
                     (Broken.is_import_of "gcloud.storage.connection"))
             [VStr "proj"; VStr "e@x"; VStr "/k"] Fake.s0 in
  fst r = inr (Raised "Failure") /\
  new_ops 0 (snd r) = [import_Credentials; import_Connection] /\
  world (snd r) = 2.
Proof.
  apply (get_connection_without_Connection
           (C := Broken.failing
                   (Broken.is_import_of "gcloud.storage.connection"))
           (VStr "proj") (VStr "e@x") (VStr "/k") Fake.s0
           Fake.CredentialsClass "Failure" 1 2);
    reflexivity.
Defined.

Lemma get_connection_follows_script_witness :
  let ops := new_ops 0 (snd (get_connection (C := Fake.collaborators)
                               [VStr "proj"; VStr "e@x"; VStr "/k"]
                               Fake.s0)) in
  exists Credentials Connection acquire scope credentials,
    ops `prefix_of` script (VStr "proj") (VStr "e@x") (VStr "/k")
                      Credentials Connection acquire scope credentials /\
    outcome_after (C := Fake.collaborators) [] import_Credentials 0
      = inl Credentials /\
    outcome_after (C := Fake.collaborators)
      [import_Credentials] import_Connection 0 = inl Connection /\
    outcome_after (C := Fake.collaborators)
      [import_Credentials; import_Connection]
      (lookup_acquire Credentials) 0 = inl acquire /\
    module_globals !! "SCOPE" = Some scope /\
    outcome_after (C := Fake.collaborators)
      [import_Credentials; import_Connection; lookup_acquire Credentials]
      (acquisition acquire (VStr "e@x") (VStr "/k") scope) 0
      = inl credentials.
Proof.
  intros ops.
  destruct (get_connection_follows_script (C := Fake.collaborators)
              (VStr "proj") (VStr "e@x") (VStr "/k") Fake.s0)
    as (Cr & Co & f & scope & c & rest & Hpre & _ & _ & T1 & T2 & T3).
  exists Cr, Co, f, scope, c.
  split; [exact Hpre|].
  destruct T1 as [T1a T1b]; [vm_compute; lia|].
  destruct T2 as [T2a T2b]; [vm_compute; lia|].
  split; [exact T1a|]. split; [exact T1b|]. split; [exact T2a|].
  split; [exact T2b|].
  apply T3. vm_compute. lia.
Defined.

(** ** The first call of [get_connection] through the import system *)

